(** * Code Caddy: the book collection store

    A shallow embedding of [src/context/BookCollectionContext.tsx]: the
    [Book] record, the reducer [bookCollectionReducer], the operations the
    provider hands out ([addBook], [removeBook], [updateBookStatus],
    [searchBooks], [clearSearch]) and its query helpers ([getBookById],
    [getBooksByStatus], [getTotalBooks], [getReadingProgress]).

    React's [useReducer] keeps one state value and replaces it by the
    reducer's result on every [dispatch]; here every operation is a function
    from the state before to the state after, and every helper a function of
    the state it closes over. *)

From stdpp Require Import base strings list pretty.

Open Scope string_scope.
Open Scope list_scope.

(** ** Data model *)

(** [type BookStatus = "want-to-read" | "currently-reading" | "have-read"] *)
Inductive BookStatus : Set :=
  | want_to_read
  | currently_reading
  | have_read.

(** The string each tag stands for in the source. *)
Definition BookStatus_tag (s : BookStatus) : string :=
  match s with
  | want_to_read => "want-to-read"
  | currently_reading => "currently-reading"
  | have_read => "have-read"
  end.

(** [imageLinks?: { thumbnail: string }] *)
Record ImageLinks : Set := { thumbnail : string }.

(** [interface Book]; a field marked [?] in the source is an [option].
    [pageCount] is a JavaScript number; the store never computes with it. *)
Record Book : Set := {
  id : string;
  title : string;
  authors : list string;
  description : string;
  publishedDate : option string;
  pageCount : option Z;
  imageLinks : option ImageLinks;
  status : option BookStatus;
}.

(** [interface BookCollectionState] *)
Record BookCollectionState : Set := {
  books : list Book;
  isLoading : bool;
  error : option string;
  searchResults : list Book;
  currentlyReading : list Book;
  wantToRead : list Book;
  haveRead : list Book;
}.

#[global] Instance BookStatus_eq_dec : EqDecision BookStatus.
Proof. solve_decision. Defined.
#[global] Instance ImageLinks_eq_dec : EqDecision ImageLinks.
Proof. solve_decision. Defined.
#[global] Instance Book_eq_dec : EqDecision Book.
Proof. solve_decision. Defined.
#[global] Instance BookCollectionState_eq_dec : EqDecision BookCollectionState.
Proof. solve_decision. Defined.

(** The object spread [{ ...book, status: s }]: every field of [book], with
    [status] overwritten. *)
Definition with_status (book : Book) (s : BookStatus) : Book :=
  {| id := id book;
     title := title book;
     authors := authors book;
     description := description book;
     publishedDate := publishedDate book;
     pageCount := pageCount book;
     imageLinks := imageLinks book;
     status := Some s |}.

(** [{ ...state, books: bs }] *)
Definition with_books (state : BookCollectionState) (bs : list Book)
  : BookCollectionState :=
  {| books := bs;
     isLoading := isLoading state;
     error := error state;
     searchResults := searchResults state;
     currentlyReading := currentlyReading state;
     wantToRead := wantToRead state;
     haveRead := haveRead state |}.

(** [{ ...state, searchResults: rs }] *)
Definition with_searchResults (state : BookCollectionState) (rs : list Book)
  : BookCollectionState :=
  {| books := books state;
     isLoading := isLoading state;
     error := error state;
     searchResults := rs;
     currentlyReading := currentlyReading state;
     wantToRead := wantToRead state;
     haveRead := haveRead state |}.

(** [Array.prototype.find]: the first element that satisfies the callback,
    [undefined] (here [None]) when there is none. *)
Definition array_find {A} (P : A → Prop) `{∀ x, Decision (P x)}
    (l : list A) : option A :=
  snd <$> list_find P l.

(** ** The reducer *)

(** [const sampleBooks] (neither sample carries a status). *)
Definition sampleBooks : list Book :=
  [ {| id := "1";
       title := "The Great Gatsby";
       authors := ["F. Scott Fitzgerald"];
       description := "A classic American novel";
       publishedDate := Some "1925";
       pageCount := Some 180%Z;
       imageLinks := Some {| thumbnail :=
         "https://via.placeholder.com/128x192/4a90e2/ffffff?text=Book" |};
       status := None |};
    {| id := "2";
       title := "To Kill a Mockingbird";
       authors := ["Harper Lee"];
       description := "A story of racial injustice and childhood innocence";
       publishedDate := Some "1960";
       pageCount := Some 281%Z;
       imageLinks := Some {| thumbnail :=
         "https://via.placeholder.com/128x192/7ed321/ffffff?text=Book" |};
       status := None |} ].

(** [type BookCollectionAction] *)
Inductive BookCollectionAction : Set :=
  | ADD_BOOK (payload : Book)
  | REMOVE_BOOK (payload : string)
  | UPDATE_BOOK_STATUS (payload_id : string) (payload_status : BookStatus)
  | SET_SEARCH_RESULTS (payload : list Book).

(** [function bookCollectionReducer(state, action)]. The [default] branch of
    the source's [switch] is not reachable for a value of the action type. *)
Definition bookCollectionReducer (state : BookCollectionState)
    (action : BookCollectionAction) : BookCollectionState :=
  match action with
  | ADD_BOOK payload =>
      with_books state (books state ++ [with_status payload want_to_read])
  | REMOVE_BOOK payload =>
      with_books state (filter (λ book, id book ≠ payload) (books state))
  | UPDATE_BOOK_STATUS payload_id payload_status =>
      with_books state
        ((λ book, if decide (id book = payload_id)
                  then with_status book payload_status
                  else book) <$> books state)
  | SET_SEARCH_RESULTS payload =>
      with_searchResults state payload
  end.

(** [const initialState] *)
Definition initialState : BookCollectionState :=
  {| books := (λ book, with_status book want_to_read) <$> sampleBooks;
     searchResults := [];
     isLoading := false;
     error := None;
     currentlyReading := [];
     wantToRead := [];
     haveRead := [] |}.

(** ** The provider's operations *)

Definition addBook (book : Book) (state : BookCollectionState)
  : BookCollectionState :=
  bookCollectionReducer state (ADD_BOOK book).

Definition removeBook (bookId : string) (state : BookCollectionState)
  : BookCollectionState :=
  bookCollectionReducer state (REMOVE_BOOK bookId).

Definition updateBookStatus (bookId : string) (s : BookStatus)
    (state : BookCollectionState) : BookCollectionState :=
  bookCollectionReducer state (UPDATE_BOOK_STATUS bookId s).

(** What [await searchGoogleBooks(query)] does, seen from [searchBooks]: the
    promise is rejected, or it resolves to an object whose [items] is an
    array or is missing. The gateway module itself is outside this file; its
    outcome is an input of [searchBooks]. *)
Inductive GatewayOutcome : Set :=
  | Rejected
  | Resolved (items : option (list Book)).

(** The [mockResults] array of the [catch] branch. [now] is the value of
    [Date.now()], an integer number of milliseconds, printed in decimal by
    the template literal. *)
Definition mockResults (query : string) (now : Z) : list Book :=
  [ {| id := "search-" +:+ pretty now;
       title := "Search Result: " +:+ query;
       authors := ["Sample Author"];
       description := "This is a mock search result (API may be unavailable)";
       publishedDate := Some "2023";
       pageCount := Some 200%Z;
       imageLinks := Some {| thumbnail :=
         "https://via.placeholder.com/128x192/ff6b6b/ffffff?text=Search" |};
       status := Some want_to_read |} ].

(** [const searchBooks = async (query) => { try { ... } catch { ... } }].
    Inside [try], a rejected promise throws at the [await], and a missing
    [items] throws at [result.items.map]; both land in [catch]. *)
Definition searchBooks (query : string) (outcome : GatewayOutcome) (now : Z)
    (state : BookCollectionState) : BookCollectionState :=
  match outcome with
  | Resolved (Some items) =>
      let booksWithStatus :=
        (λ book, with_status book want_to_read) <$> items in
      bookCollectionReducer state (SET_SEARCH_RESULTS booksWithStatus)
  | Resolved None | Rejected =>
      bookCollectionReducer state (SET_SEARCH_RESULTS (mockResults query now))
  end.

Definition clearSearch (state : BookCollectionState) : BookCollectionState :=
  bookCollectionReducer state (SET_SEARCH_RESULTS []).

(** ** The provider's helpers *)

Definition getBooksByStatus (state : BookCollectionState) (s : BookStatus)
  : list Book :=
  filter (λ book, status book = Some s) (books state).

Definition getBookById (state : BookCollectionState) (i : string)
  : option Book :=
  array_find (λ book, id book = i) (books state).

Definition getTotalBooks (state : BookCollectionState) : nat :=
  length (books state).

(** The object [{ completed, total }]. *)
Record ReadingProgress : Set := { completed : nat; total : nat }.

#[global] Instance ReadingProgress_eq_dec : EqDecision ReadingProgress.
Proof. solve_decision. Defined.

Definition getReadingProgress (state : BookCollectionState)
  : ReadingProgress :=
  let completed :=
    length (filter (λ book, status book = Some have_read) (books state)) in
  {| completed := completed; total := length (books state) |}.

(** ** Sequences of operations *)

(** The three operations that write the Collection. *)
Inductive CollectionOp : Set :=
  | AddBook (book : Book)
  | RemoveBook (bookId : string)
  | UpdateBookStatus (bookId : string) (s : BookStatus).

(** Every operation of the store. A search carries what its environment
    answered: the gateway's outcome and the clock. *)
Inductive StoreOp : Set :=
  | Mutate (op : CollectionOp)
  | SearchBooks (query : string) (outcome : GatewayOutcome) (now : Z)
  | ClearSearch.

Definition apply_collection_op (op : CollectionOp)
    (state : BookCollectionState) : BookCollectionState :=
  match op with
  | AddBook book => addBook book state
  | RemoveBook bookId => removeBook bookId state
  | UpdateBookStatus bookId s => updateBookStatus bookId s state
  end.

Definition apply_op (op : StoreOp) (state : BookCollectionState)
  : BookCollectionState :=
  match op with
  | Mutate op => apply_collection_op op state
  | SearchBooks query outcome now => searchBooks query outcome now state
  | ClearSearch => clearSearch state
  end.

(** The operations of [ops] one after the other, the head first. *)
Definition run_collection_ops (ops : list CollectionOp)
    (state : BookCollectionState) : BookCollectionState :=
  foldl (λ st op, apply_collection_op op st) state ops.

(** The states the store can be in: [initialState], and whatever an
    operation makes of such a state. *)
Inductive reachable : BookCollectionState → Prop :=
  | reachable_initial : reachable initialState
  | reachable_step op state :
      reachable state → reachable (apply_op op state).

(** ** Notions the properties are stated with *)

(** The identifiers of the Collection, in order. *)
Definition collection_ids (state : BookCollectionState) : list string :=
  id <$> books state.

(** No two records of the Collection carry the same identifier. *)
Definition unique_ids (state : BookCollectionState) : Prop :=
  NoDup (collection_ids state).

(** How many records of [l] are tagged have-read, counted one by one. *)
Fixpoint count_have_read (l : list Book) : nat :=
  match l with
  | [] => 0
  | book :: l' =>
      match status book with
      | Some have_read => S (count_have_read l')
      | _ => count_have_read l'
      end
  end.

(** [t] contains [q] verbatim: [q] sits in [t] between some prefix and some
    suffix. *)
Definition contains_verbatim (t q : string) : Prop :=
  ∃ before after, t = before +:+ q +:+ after.

(** The [try] block of [searchBooks] throws: the gateway's promise is
    rejected, or what it resolved to has no [items]. *)
Definition search_fails (outcome : GatewayOutcome) : Prop :=
  match outcome with
  | Rejected | Resolved None => True
  | Resolved (Some _) => False
  end.

(** [op] is a call of [addBook], of [removeBook], of [updateBookStatus]. *)
Definition is_addBook (op : StoreOp) : bool :=
  match op with Mutate (AddBook _) => true | _ => false end.
Definition is_removeBook (op : StoreOp) : bool :=
  match op with Mutate (RemoveBook _) => true | _ => false end.
Definition is_updateBookStatus (op : StoreOp) : bool :=
  match op with Mutate (UpdateBookStatus _ _) => true | _ => false end.

(** The scenario of two records: [addBook A], [addBook B], then
    [updateBookStatus "2" have_read]. *)
Definition scenario (A B : Book) (state : BookCollectionState)
  : BookCollectionState :=
  updateBookStatus "2" have_read (addBook B (addBook A state)).

Definition scenario_A : Book :=
  {| id := "1"; title := "Dune"; authors := ["Frank Herbert"];
     description := "Arrakis"; publishedDate := Some "1965";
     pageCount := Some 412%Z; imageLinks := None; status := None |}.

Definition scenario_B : Book :=
  {| id := "2"; title := "Emma"; authors := ["Jane Austen"];
     description := "Highbury"; publishedDate := None;
     pageCount := None; imageLinks := None; status := None |}.

(** ** Sample inputs *)

(** The first sample book, handed to [addBook] a second time. *)
Definition gatsby_again : Book :=
  {| id := "1"; title := "The Great Gatsby"; authors := ["F. Scott Fitzgerald"];
     description := "A classic American novel"; publishedDate := Some "1925";
     pageCount := Some 180%Z; imageLinks := None; status := None |}.

(** A record that reuses the identifier of the first sample book. *)
Definition other_book_1 : Book :=
  {| id := "1"; title := "Dune"; authors := ["Frank Herbert"];
     description := "Arrakis"; publishedDate := Some "1965";
     pageCount := Some 412%Z; imageLinks := None;
     status := Some currently_reading |}.

(** The initial Collection with its second record marked as read. *)
Definition one_read : BookCollectionState :=
  updateBookStatus "2" have_read initialState.

(** ** The pages that read the store *)

(** What [BookDetailsPage] renders: [<div>Book not found</div>], or
    [<BookDetails book={book} onBack={...} />], whose [onBack] navigates to
    the path recorded here. *)
Inductive DetailsView : Set :=
  | BookNotFound
  | BookDetails (book : Book) (onBack : string).

(** [function BookDetailsPage()] of [pages/BookDetailsPage.jsx]. [idParam]
    is the [id] of [useParams()], [undefined] (here [None]) when the route
    has no such parameter; no record's [id] is [===] to [undefined], so
    [getBookById(undefined)] finds nothing. A found record is an object, and
    an object is never falsy for [!book]. *)
Definition BookDetailsPage (idParam : option string)
    (state : BookCollectionState) : DetailsView :=
  let book :=
    match idParam with
    | Some i => getBookById state i
    | None => None
    end in
  match book with
  | None => BookNotFound
  | Some book => BookDetails book "/collection"
  end.

(** The [className] of the three links of [function Navigation()], for the
    [location.pathname] it reads. *)
Record NavigationLinks : Set := {
  homeClassName : string;
  searchClassName : string;
  collectionClassName : string;
}.

Definition Navigation (pathname : string) : NavigationLinks :=
  {| homeClassName :=
       if decide (pathname = "/") then "nav-link active" else "nav-link";
     searchClassName :=
       if decide (pathname = "/search") then "nav-link active" else "nav-link";
     collectionClassName :=
       if String.prefix "/collection" pathname
       then "nav-link active" else "nav-link" |}.

(** How many of the three links carry the class [active]. *)
Definition active_links (n : NavigationLinks) : nat :=
  length (filter (λ c, c = "nav-link active")
            [homeClassName n; searchClassName n; collectionClassName n]).

(** ** The query builder of the API guide *)

(** The optional [filters] argument of [buildSearchQuery]. *)
Record SearchFilters : Set := {
  author : option string;
  subject : option string;
  publisher : option string;
  isbn : option string;
}.

(** [if (filters.author)]: an optional string is truthy when it is present
    and not empty. *)
Definition truthy (field : option string) : bool :=
  match field with
  | Some s => bool_decide (s ≠ "")
  | None => false
  end.

(** One [if (filters.f) { query += `+tag:${filters.f}` }] step. *)
Definition append_filter (tag : string) (field : option string)
    (query : string) : string :=
  match field with
  | Some s => if truthy field then query +:+ tag +:+ s else query
  | None => query
  end.

(** [static buildSearchQuery(searchTerm, filters?)] *)
Definition buildSearchQuery (searchTerm : string)
    (filters : option SearchFilters) : string :=
  let query := searchTerm in
  match filters with
  | Some filters =>
      let query := append_filter "+inauthor:" (author filters) query in
      let query := append_filter "+subject:" (subject filters) query in
      let query := append_filter "+inpublisher:" (publisher filters) query in
      let query := append_filter "+isbn:" (isbn filters) query in
      query
  | None => query
  end.

(** ** Further notions *)

(** The record carries one of the three statuses. *)
Definition has_status (book : Book) : Prop := is_Some (status book).

(** How many records of the Collection have identifier [i]. *)
Definition count_id (i : string) (state : BookCollectionState) : nat :=
  length (filter (λ book, id book = i) (books state)).

(** Two records agree on every field but [status]. *)
Definition same_but_status (a b : Book) : Prop :=
  id a = id b ∧ title a = title b ∧ authors a = authors b ∧
  description a = description b ∧ publishedDate a = publishedDate b ∧
  pageCount a = pageCount b ∧ imageLinks a = imageLinks b.

(** The identifier a Collection operation is about. *)
Definition op_id (op : CollectionOp) : string :=
  match op with
  | AddBook book => id book
  | RemoveBook bookId => bookId
  | UpdateBookStatus bookId _ => bookId
  end.

(** A small run of the store: a failed search, a new record, a status
    change, a removal. *)
Definition busy_state : BookCollectionState :=
  removeBook "2"
    (updateBookStatus "1" have_read
       (addBook other_book_1
          (searchBooks "dune" Rejected 1700000000000 initialState))).

(** * Properties *)

(** A closed decidable proposition, settled by running its decision
    procedure. *)
Ltac by_evaluation := apply (bool_decide_unpack _); vm_compute; exact I.

(** ** Records and spreads *)

Lemma with_books_same state : with_books state (books state) = state.
Proof. by destruct state. Qed.

Lemma with_books_twice state k l :
  with_books (with_books state k) l = with_books state l.
Proof. done. Qed.

(** ** [Array.prototype.filter] and [Array.prototype.find] *)

Lemma filter_keeps_all {A} (P : A → Prop) `{!∀ x, Decision (P x)} l :
  Forall P l → filter P l = l.
Proof.
  induction 1 as [|x l Hx _ IH]; [done|]. by rewrite filter_cons_True, IH.
Qed.

Section array_find.
Context {A} (P : A → Prop) `{!∀ x, Decision (P x)}.

Lemma array_find_nil : array_find P [] = None.
Proof. done. Qed.

Lemma array_find_cons x l :
  array_find P (x :: l) = if decide (P x) then Some x else array_find P l.
Proof.
  unfold array_find. simpl. case_decide; [done|].
  destruct (list_find P l) as [[??]|]; done.
Qed.

Lemma array_find_None l : array_find P l = None ↔ Forall (λ x, ¬ P x) l.
Proof.
  unfold array_find. rewrite fmap_None. apply list_find_None.
Qed.

Lemma array_find_app l k :
  array_find P (l ++ k) =
    match array_find P l with
    | Some x => Some x
    | None => array_find P k
    end.
Proof.
  induction l as [|x l IH]; [done|].
  rewrite <- app_comm_cons, !array_find_cons. by case_decide.
Qed.

Lemma array_find_filter_out l : array_find P (filter (λ x, ¬ P x) l) = None.
Proof.
  apply array_find_None, Forall_forall.
  by intros x [? _]%list_elem_of_filter.
Qed.
End array_find.

(** ** Identifiers under the reducer *)

Lemma collection_ids_addBook book state :
  collection_ids (addBook book state) = collection_ids state ++ [id book].
Proof. unfold collection_ids. simpl. by rewrite fmap_app. Qed.

Lemma collection_ids_removeBook i state :
  collection_ids (removeBook i state) = filter (λ j, j ≠ i) (collection_ids state).
Proof.
  unfold collection_ids. simpl.
  induction (books state) as [|b l IH]; [done|].
  rewrite fmap_cons, !filter_cons. simpl. case_decide; [|done].
  by rewrite fmap_cons, IH.
Qed.

Lemma collection_ids_updateBookStatus i s state :
  collection_ids (updateBookStatus i s state) = collection_ids state.
Proof.
  unfold collection_ids. simpl. rewrite <- list_fmap_compose.
  apply list_fmap_ext. intros _ b _. simpl. by case_decide.
Qed.

Lemma books_searchBooks query outcome now state :
  books (searchBooks query outcome now state) = books state.
Proof. by destruct outcome as [|[items|]]. Qed.

Lemma getBookById_None state i :
  getBookById state i = None ↔ i ∉ collection_ids state.
Proof.
  unfold getBookById, collection_ids.
  rewrite array_find_None, Forall_forall, list_elem_of_fmap. split.
  - intros Hall (b & -> & Hb). by apply (Hall b).
  - intros Hnone b Hb <-. apply Hnone. by exists b.
Qed.

(** ** C1: unique identifiers *)

(** C1, as stated, fails: [addBook] appends without looking at the
    identifiers present, so the state reached from [initialState] by adding a
    record with identifier "1" holds that identifier twice. *)
Lemma C1_addBook_duplicates_identifier :
  reachable (addBook gatsby_again initialState) ∧
  collection_ids (addBook gatsby_again initialState) = ["1"; "2"; "1"] ∧
  ¬ unique_ids (addBook gatsby_again initialState).
Proof.
  split; [|split].
  - apply (reachable_step (Mutate (AddBook gatsby_again))), reachable_initial.
  - reflexivity.
  - unfold unique_ids. intros Hnd. vm_compute in Hnd.
    apply NoDup_cons in Hnd as [Hin _]. apply Hin.
    rewrite !elem_of_cons. auto.
Qed.

(** C1 (amended): the Collection of [initialState] has no two records with
    the same identifier, and uniqueness of identifiers is preserved by every
    operation ([removeBook], [updateBookStatus], [searchBooks], [clearSearch]
    and [addBook]) provided that [addBook] is called with an identifier not
    yet in the Collection. *)
Theorem C1_unique_ids_preserved :
  unique_ids initialState ∧
  ∀ (op : StoreOp) (state : BookCollectionState),
    unique_ids state →
    (∀ book, op = Mutate (AddBook book) → id book ∉ collection_ids state) →
    unique_ids (apply_op op state).
Proof.
  split.
  { unfold unique_ids. by_evaluation. }
  intros op state Hnd Hfresh. unfold unique_ids in *.
  destruct op as [[book|i|i s]|query outcome now|]; simpl.
  - rewrite collection_ids_addBook. apply NoDup_app. split_and!; [done| |].
    + intros j Hj Hnew%list_elem_of_singleton. subst j. by eapply Hfresh.
    + apply NoDup_singleton.
  - rewrite collection_ids_removeBook. by apply NoDup_filter.
  - by rewrite collection_ids_updateBookStatus.
  - unfold collection_ids. by rewrite books_searchBooks.
  - done.
Qed.

Lemma C1_unique_ids_preserved_witness :
  unique_ids
    (apply_op (Mutate (AddBook (with_status gatsby_again have_read)))
       (removeBook "1" initialState)).
Proof.
  apply (proj2 C1_unique_ids_preserved).
  - unfold unique_ids. by_evaluation.
  - intros book [= <-]. by_evaluation.
Defined.

(** ** C2: [addBook] and [getBookById] *)

(** C2, as stated, fails in its second half: when the Collection already
    holds a record with the identifier of [r], [getBookById] finds that
    earlier record, not the one [addBook] has just appended. *)
Lemma C2_getBookById_returns_earlier_record :
  getBookById (addBook other_book_1 initialState) (id other_book_1)
    ≠ Some (with_status other_book_1 want_to_read) ∧
  (title <$> getBookById (addBook other_book_1 initialState) (id other_book_1))
    = Some "The Great Gatsby".
Proof. split; [by_evaluation | reflexivity]. Qed.

(** C2 (amended): [addBook r] appends to the end of the Collection the record
    [r] with its status forced to want-to-read, whatever status [r] carried;
    afterwards [getBookById (id r)] returns exactly that record when no record
    with that identifier was in the Collection before, and otherwise the
    record it returned before the call. *)
Theorem C2_addBook_appends_and_lookup :
  ∀ (r : Book) (state : BookCollectionState),
    books (addBook r state) = books state ++ [with_status r want_to_read] ∧
    status (with_status r want_to_read) = Some want_to_read ∧
    (id r ∉ collection_ids state →
       getBookById (addBook r state) (id r)
         = Some (with_status r want_to_read)) ∧
    (∀ earlier, getBookById state (id r) = Some earlier →
       getBookById (addBook r state) (id r) = Some earlier).
Proof.
  intros r state. split_and!; [done..| |].
  - intros Hfresh%getBookById_None. unfold getBookById in *. simpl.
    rewrite array_find_app, Hfresh, array_find_cons. by rewrite decide_True.
  - intros earlier Hfound. unfold getBookById in *. simpl.
    by rewrite array_find_app, Hfound.
Qed.

Lemma C2_addBook_appends_and_lookup_witness :
  getBookById (addBook other_book_1 (removeBook "1" initialState)) "1"
    = Some (with_status other_book_1 want_to_read) ∧
  getBookById (addBook other_book_1 initialState) "1"
    = getBookById initialState "1".
Proof.
  pose proof (C2_addBook_appends_and_lookup other_book_1
                (removeBook "1" initialState)) as (_ & _ & Hfresh & _).
  pose proof (C2_addBook_appends_and_lookup other_book_1 initialState)
    as (_ & _ & _ & Hearlier).
  split.
  - apply Hfresh. by_evaluation.
  - apply Hearlier. reflexivity.
Defined.

(** ** C3: [removeBook] and [getBookById] *)

(** C3: after [removeBook i], [getBookById i] finds nothing, whether or not a
    record with identifier [i] was present; and when none was present,
    [removeBook i] returns the state it was given. ([removeBook] is a total
    function: there is no error outcome.) *)
Theorem C3_removeBook_then_not_found :
  ∀ (i : string) (state : BookCollectionState),
    getBookById (removeBook i state) i = None ∧
    (getBookById state i = None → removeBook i state = state).
Proof.
  intros i state. split.
  - unfold getBookById. simpl.
    apply (array_find_filter_out (λ book, id book = i)).
  - intros Habsent. unfold getBookById in Habsent.
    apply array_find_None in Habsent.
    unfold removeBook. simpl.
    rewrite (filter_keeps_all _ _ Habsent). apply with_books_same.
Qed.

Lemma C3_removeBook_then_not_found_witness :
  getBookById initialState "3" = None ∧
  removeBook "3" initialState = initialState.
Proof.
  split; [reflexivity|].
  apply (C3_removeBook_then_not_found "3" initialState). reflexivity.
Defined.

(** ** C4: [updateBookStatus] is idempotent *)

(** C4: applying [updateBookStatus i s] twice gives the very state that
    applying it once gives. *)
Theorem C4_updateBookStatus_idempotent :
  ∀ (i : string) (s : BookStatus) (state : BookCollectionState),
    updateBookStatus i s (updateBookStatus i s state)
      = updateBookStatus i s state.
Proof.
  intros i s state. unfold updateBookStatus. simpl.
  rewrite with_books_twice. f_equal.
  rewrite <- list_fmap_compose. apply list_fmap_ext.
  intros _ book _. simpl.
  destruct (decide (id book = i)) as [Heq|Hne].
  - by rewrite decide_True.
  - by rewrite decide_False.
Qed.

(** ** C5: [getBooksByStatus] *)

Lemma sublist_filter_greatest {A} (P : A → Prop) `{!∀ x, Decision (P x)}
    (l k : list A) :
  l `sublist_of` k → Forall P l → l `sublist_of` filter P k.
Proof.
  induction 1 as [|x l k _ IH|x l k _ IH]; intros Hall.
  - apply sublist_nil_l.
  - apply Forall_cons in Hall as [Hx Hl].
    rewrite filter_cons_True by done. by apply sublist_skip, IH.
  - rewrite filter_cons. case_decide; [apply sublist_cons|]; by apply IH.
Qed.

(** C5: for each of the three statuses [s], [getBooksByStatus s] is the
    subsequence of the Collection made of the records whose status is [s], in
    the Collection's order: it is a subsequence of the Collection, all its
    records have status [s], it holds exactly the Collection's records of
    status [s], and every subsequence of the Collection whose records all have
    status [s] is a subsequence of it. On an empty Collection it is empty. *)
Theorem C5_getBooksByStatus_subsequence :
  ∀ (state : BookCollectionState) (s : BookStatus),
    getBooksByStatus state s `sublist_of` books state ∧
    Forall (λ book, status book = Some s) (getBooksByStatus state s) ∧
    (∀ book, book ∈ getBooksByStatus state s ↔
               book ∈ books state ∧ status book = Some s) ∧
    (∀ l, l `sublist_of` books state →
          Forall (λ book, status book = Some s) l →
          l `sublist_of` getBooksByStatus state s) ∧
    (books state = [] → getBooksByStatus state s = []).
Proof.
  intros state s. unfold getBooksByStatus. split_and!.
  - apply sublist_filter.
  - apply Forall_forall. by intros book [? _]%list_elem_of_filter.
  - intros book. rewrite list_elem_of_filter. tauto.
  - intros l. apply sublist_filter_greatest.
  - by intros ->.
Qed.

Lemma C5_getBooksByStatus_subsequence_witness :
  drop 1 (books one_read) `sublist_of` getBooksByStatus one_read have_read ∧
  getBooksByStatus (with_books initialState []) currently_reading = [].
Proof.
  pose proof (C5_getBooksByStatus_subsequence one_read have_read)
    as (_ & _ & _ & Hgreatest & _).
  pose proof (C5_getBooksByStatus_subsequence
                (with_books initialState []) currently_reading)
    as (_ & _ & _ & _ & Hempty).
  split.
  - apply Hgreatest.
    + apply sublist_drop.
    + by_evaluation.
  - apply Hempty. reflexivity.
Defined.

(** ** C6: [getReadingProgress] *)

Lemma length_filter_have_read (l : list Book) :
  length (filter (λ book, status book = Some have_read) l) = count_have_read l.
Proof.
  induction l as [|book l IH]; [done|].
  rewrite filter_cons. simpl.
  destruct (status book) as [[| |]|]; simpl; by rewrite ?IH.
Qed.

(** C6: after any finite sequence of [addBook], [removeBook] and
    [updateBookStatus] calls, from any state, [getReadingProgress] is the
    number of have-read records of the Collection together with the number
    of all its records. *)
Theorem C6_getReadingProgress_counts :
  ∀ (ops : list CollectionOp) (state : BookCollectionState),
    getReadingProgress (run_collection_ops ops state)
      = {| completed :=
             count_have_read (books (run_collection_ops ops state));
           total := length (books (run_collection_ops ops state)) |}.
Proof.
  intros ops state. unfold getReadingProgress.
  by rewrite length_filter_have_read.
Qed.

Example getReadingProgress_after_three_ops :
  getReadingProgress
    (run_collection_ops
       [AddBook other_book_1; UpdateBookStatus "1" have_read; RemoveBook "2"]
       initialState)
    = {| completed := 2; total := 2 |}.
Proof. reflexivity. Qed.

(** ** C7: the fallback of [searchBooks] *)

Lemma string_app_empty_r (s : string) : s +:+ "" = s.
Proof.
  induction s as [|c s IH]; [done|].
  change (String c (s +:+ "") = String c s). by f_equal.
Qed.

(** C7: when the gateway call of [searchBooks q] fails, the search results
    afterwards are exactly one placeholder record; its title contains [q]
    verbatim, and its identifier is ["search-"] followed by the decimal
    digits of the current time, so that two different times give two
    different identifiers. *)
Theorem C7_searchBooks_fallback :
  ∀ (q : string) (outcome : GatewayOutcome) (now : Z)
    (state : BookCollectionState),
    search_fails outcome →
    ∃ placeholder,
      searchResults (searchBooks q outcome now state) = [placeholder] ∧
      contains_verbatim (title placeholder) q ∧
      id placeholder = "search-" +:+ pretty now ∧
      (∀ now', id placeholder = "search-" +:+ pretty now' → now' = now).
Proof.
  intros q outcome now state Hfails.
  assert (searchResults (searchBooks q outcome now state) = mockResults q now)
    as -> by (by destruct outcome as [|[items|]]).
  eexists. split_and!; [done| |done|].
  - exists "Search Result: ", "". simpl. by rewrite string_app_empty_r.
  - intros now' Heq. simpl in Heq. symmetry.
    by eapply (inj pretty), (inj (String.app "search-")).
Qed.

Lemma C7_searchBooks_fallback_witness :
  ∃ placeholder,
    searchResults (searchBooks "dune" Rejected 1700000000000 initialState)
      = [placeholder] ∧
    contains_verbatim (title placeholder) "dune" ∧
    id placeholder = "search-1700000000000".
Proof.
  destruct (C7_searchBooks_fallback "dune" Rejected 1700000000000 initialState I)
    as (placeholder & Hres & Htitle & Hid & _).
  exists placeholder. split_and!; [exact Hres | exact Htitle |].
  rewrite Hid. reflexivity.
Defined.

(** ** C8: searching leaves the Collection alone *)

(** C8: [searchBooks], [clearSearch] and every [SET_SEARCH_RESULTS]
    transition leave [books] unchanged. For every operation of the store: an
    identifier enters the Collection only by [addBook], leaves it only by
    [removeBook], and unless the operation is [updateBookStatus] every record
    of the Collection afterwards is a record of the Collection before, status
    included, or the record [addBook] has just appended. *)
Theorem C8_search_frames_collection :
  (∀ state payload,
     books (bookCollectionReducer state (SET_SEARCH_RESULTS payload))
       = books state) ∧
  (∀ q outcome now state,
     books (searchBooks q outcome now state) = books state) ∧
  (∀ state, books (clearSearch state) = books state) ∧
  (∀ op state,
     is_addBook op = false →
     collection_ids (apply_op op state) `sublist_of` collection_ids state) ∧
  (∀ op state,
     is_removeBook op = false →
     collection_ids state `prefix_of` collection_ids (apply_op op state)) ∧
  (∀ op state book,
     is_updateBookStatus op = false →
     book ∈ books (apply_op op state) →
     book ∈ books state ∨
     ∃ r, op = Mutate (AddBook r) ∧ book = with_status r want_to_read).
Proof.
  split_and!.
  - done.
  - apply books_searchBooks.
  - done.
  - intros [[r|i|i s]|q outcome now|] state Hop; try done; simpl.
    + rewrite collection_ids_removeBook. apply sublist_filter.
    + by rewrite collection_ids_updateBookStatus.
    + unfold collection_ids. by rewrite books_searchBooks.
  - intros [[r|i|i s]|q outcome now|] state Hop; try done; simpl.
    + rewrite collection_ids_addBook. by apply prefix_app_r.
    + by rewrite collection_ids_updateBookStatus.
    + unfold collection_ids. by rewrite books_searchBooks.
  - intros [[r|i|i s]|q outcome now|] state book Hop; try done; simpl.
    + intros [?|Hnew%list_elem_of_singleton]%elem_of_app; [by left|].
      right. by exists r.
    + intros [_ ?]%list_elem_of_filter. by left.
    + rewrite books_searchBooks. by left.
    + by left.
Qed.

Lemma C8_search_frames_collection_witness :
  collection_ids (apply_op (Mutate (RemoveBook "1")) initialState)
    `sublist_of` collection_ids initialState ∧
  collection_ids initialState
    `prefix_of` collection_ids (apply_op (Mutate (AddBook other_book_1))
                                  initialState) ∧
  (with_status other_book_1 want_to_read ∈ books initialState ∨
   ∃ r, Mutate (AddBook other_book_1) = Mutate (AddBook r) ∧
        with_status other_book_1 want_to_read = with_status r want_to_read).
Proof.
  pose proof C8_search_frames_collection
    as (_ & _ & _ & Henter & Hleave & Hstatus).
  split_and!.
  - apply Henter. reflexivity.
  - apply Hleave. reflexivity.
  - apply Hstatus; [reflexivity|]. by_evaluation.
Defined.

(** ** C9: the two-record scenario *)

(** C9, as stated, fails: [initialState] already holds the sample books "1"
    and "2", so after the three calls the Collection has four records, and
    [updateBookStatus "2"] has marked two of them as read. *)
Lemma C9_scenario_from_initialState_differs :
  getReadingProgress (scenario scenario_A scenario_B initialState)
    = {| completed := 2; total := 4 |} ∧
  getReadingProgress (scenario scenario_A scenario_B initialState)
    ≠ {| completed := 1; total := 2 |} ∧
  length (getBooksByStatus (scenario scenario_A scenario_B initialState)
            have_read) = 2.
Proof. split_and!; [reflexivity | by_evaluation | reflexivity]. Qed.

(** C9 (amended): from a store whose Collection is empty, after [addBook] of
    a record [A] with identifier "1", [addBook] of a record [B] with
    identifier "2" and [updateBookStatus "2" have_read], [getReadingProgress]
    is (1, 2) and [getBooksByStatus have_read] is the one-element list of [B]
    with status have-read. From [initialState], whose Collection holds the
    two sample books, the same calls give (2, 4) and the list of the second
    sample book and [B], both with status have-read. *)
Theorem C9_scenario :
  ∀ (A B : Book),
    id A = "1" → id B = "2" →
    (∀ state, books state = [] →
       getReadingProgress (scenario A B state)
         = {| completed := 1; total := 2 |} ∧
       getBooksByStatus (scenario A B state) have_read
         = [with_status B have_read]) ∧
    getReadingProgress (scenario A B initialState)
      = {| completed := 2; total := 4 |} ∧
    getBooksByStatus (scenario A B initialState) have_read
      = (λ book, with_status book have_read) <$> (drop 1 sampleBooks ++ [B]).
Proof.
  intros [idA ? ? ? ? ? ? ?] [idB ? ? ? ? ? ? ?]. simpl.
  intros -> ->. split_and!.
  - intros [bs ? ? ? ? ? ?]. simpl. intros ->. by split.
  - reflexivity.
  - reflexivity.
Qed.

Lemma C9_scenario_witness :
  getReadingProgress
    (scenario scenario_A scenario_B (with_books initialState []))
    = {| completed := 1; total := 2 |} ∧
  getBooksByStatus
    (scenario scenario_A scenario_B (with_books initialState [])) have_read
    = [with_status scenario_B have_read].
Proof.
  destruct (C9_scenario scenario_A scenario_B) as (Hempty & _ & _);
    [reflexivity..|].
  apply Hempty. reflexivity.
Defined.

(** ** C10: the initial state *)

(** C10: before any operation the Collection holds exactly the two sample
    books, identifiers "1" and "2", each with status want-to-read;
    [getTotalBooks] is 2 and [getReadingProgress] is (0, 2). *)
Theorem C10_initialState_sample_books :
  books initialState
    = (λ book, with_status book want_to_read) <$> sampleBooks ∧
  collection_ids initialState = ["1"; "2"] ∧
  status <$> books initialState = [Some want_to_read; Some want_to_read] ∧
  title <$> books initialState
    = ["The Great Gatsby"; "To Kill a Mockingbird"] ∧
  getTotalBooks initialState = 2 ∧
  getReadingProgress initialState = {| completed := 0; total := 2 |}.
Proof. by split_and!. Qed.

(** * Further properties of the store *)

(** ** What every reachable state looks like *)

Lemma busy_state_reachable : reachable busy_state.
Proof.
  apply (reachable_step (Mutate (RemoveBook "2"))).
  apply (reachable_step (Mutate (UpdateBookStatus "1" have_read))).
  apply (reachable_step (Mutate (AddBook other_book_1))).
  apply (reachable_step (SearchBooks "dune" Rejected 1700000000000)).
  apply reachable_initial.
Qed.

Lemma apply_op_keeps_status op state :
  Forall has_status (books state) →
  Forall has_status (books (apply_op op state)).
Proof.
  intros Hall. destruct op as [[r|i|i s]|q outcome now|]; simpl.
  - apply Forall_app. split; [done|]. apply Forall_singleton. by eexists.
  - apply Forall_forall. intros b [_ Hb]%list_elem_of_filter.
    by eapply Forall_forall in Hall.
  - apply Forall_fmap. eapply Forall_impl; [exact Hall|].
    intros b Hb. simpl. case_decide; [by eexists | done].
  - by rewrite books_searchBooks.
  - done.
Qed.

Lemma reachable_all_have_status state :
  reachable state → Forall has_status (books state).
Proof.
  induction 1 as [|op state _ IH].
  - repeat constructor; by eexists.
  - by apply apply_op_keeps_status.
Qed.

(** X1: every record of the Collection of a reachable state carries a
    status: the samples get one in [initialState], [addBook] forces one, and
    no operation takes it away. *)
Theorem X1_collection_records_have_status :
  ∀ state book,
    reachable state → book ∈ books state → is_Some (status book).
Proof.
  intros state book Hreach Hin.
  by eapply Forall_forall in Hin; [|by apply reachable_all_have_status].
Qed.

Lemma X1_collection_records_have_status_witness :
  is_Some (status (with_status other_book_1 have_read)).
Proof.
  apply (X1_collection_records_have_status busy_state).
  - apply busy_state_reachable.
  - by_evaluation.
Defined.

Lemma apply_op_frame op state :
  isLoading (apply_op op state) = isLoading state ∧
  error (apply_op op state) = error state ∧
  currentlyReading (apply_op op state) = currentlyReading state ∧
  wantToRead (apply_op op state) = wantToRead state ∧
  haveRead (apply_op op state) = haveRead state.
Proof. by destruct op as [[r|i|i s]|q [|[items|]] now|]. Qed.

(** X2: the reducer never writes [isLoading], [error], [currentlyReading],
    [wantToRead] or [haveRead]: in every reachable state they still are
    [false], [null] and three empty arrays, whatever the Collection holds. *)
Theorem X2_unused_fields_never_change :
  ∀ state,
    reachable state →
    isLoading state = false ∧ error state = None ∧
    currentlyReading state = [] ∧ wantToRead state = [] ∧ haveRead state = [].
Proof.
  induction 1 as [|op state _ IH]; [done|].
  destruct (apply_op_frame op state) as (-> & -> & -> & -> & ->). exact IH.
Qed.

Lemma X2_unused_fields_never_change_witness :
  getBooksByStatus busy_state have_read ≠ [] ∧
  haveRead busy_state = [].
Proof.
  split; [by_evaluation|].
  apply (X2_unused_fields_never_change busy_state busy_state_reachable).
Defined.

Lemma reachable_searchResults_want_to_read state :
  reachable state →
  Forall (λ book, status book = Some want_to_read) (searchResults state).
Proof.
  induction 1 as [|op state _ IH]; [by constructor|].
  destruct op as [[r|i|i s]|q [|[items|]] now|]; simpl; try done.
  - by repeat constructor.
  - apply Forall_fmap, Forall_forall. by intros b _.
  - by repeat constructor.
Qed.

(** X3: every record of the search results of a reachable state has status
    want-to-read, whether it came from the gateway (whatever status the
    gateway sent) or is the placeholder of a failed search. *)
Theorem X3_search_results_want_to_read :
  ∀ state book,
    reachable state → book ∈ searchResults state →
    status book = Some want_to_read.
Proof.
  intros state book Hreach Hin.
  by eapply Forall_forall in Hin;
    [|by apply reachable_searchResults_want_to_read].
Qed.

Lemma X3_search_results_want_to_read_witness :
  Forall (λ book, status book = Some want_to_read)
    (mockResults "dune" 1700000000000).
Proof.
  apply Forall_forall. intros book Hin.
  apply (X3_search_results_want_to_read busy_state book).
  - apply busy_state_reachable.
  - exact Hin.
Defined.

(** ** The three status lists *)

Lemma filter_status_partition (l : list Book) :
  Forall has_status l →
  filter (λ book, status book = Some want_to_read) l ++
  filter (λ book, status book = Some currently_reading) l ++
  filter (λ book, status book = Some have_read) l ≡ₚ l.
Proof.
  induction 1 as [|book l [s Hs] _ IH]; [done|].
  rewrite !filter_cons, Hs.
  destruct s; simpl.
  - by rewrite IH.
  - rewrite <- Permutation_middle. by rewrite IH.
  - rewrite app_assoc, <- Permutation_middle, <- app_assoc. by rewrite IH.
Qed.

(** X4: in a reachable state the three lists [getBooksByStatus] returns for
    want-to-read, currently-reading and have-read hold, together, exactly
    the records of the Collection (each record in one list, as often as it
    occurs), so their lengths add up to [getTotalBooks]. *)
Theorem X4_status_lists_partition :
  ∀ state,
    reachable state →
    getBooksByStatus state want_to_read ++
    getBooksByStatus state currently_reading ++
    getBooksByStatus state have_read ≡ₚ books state ∧
    length (getBooksByStatus state want_to_read) +
    length (getBooksByStatus state currently_reading) +
    length (getBooksByStatus state have_read) = getTotalBooks state.
Proof.
  intros state Hall%reachable_all_have_status.
  pose proof (filter_status_partition _ Hall) as Hperm.
  split; [exact Hperm|].
  apply Permutation_length in Hperm. rewrite !length_app in Hperm.
  unfold getBooksByStatus, getTotalBooks. lia.
Qed.

Lemma X4_status_lists_partition_witness :
  length (getBooksByStatus busy_state want_to_read) +
  length (getBooksByStatus busy_state currently_reading) +
  length (getBooksByStatus busy_state have_read) = getTotalBooks busy_state.
Proof.
  apply (X4_status_lists_partition busy_state busy_state_reachable).
Defined.

(** ** [updateBookStatus] *)

Lemma array_find_fmap_id (f : Book → Book) (j : string) (l : list Book) :
  (∀ book, id (f book) = id book) →
  array_find (λ book, id book = j) (f <$> l)
    = f <$> array_find (λ book, id book = j) l.
Proof.
  intros Hid. induction l as [|b l IH]; [done|].
  rewrite fmap_cons, !array_find_cons, Hid. by case_decide.
Qed.

Lemma array_find_Some_id (i : string) (l : list Book) (b : Book) :
  array_find (λ book, id book = i) l = Some b → b ∈ l ∧ id b = i.
Proof.
  induction l as [|x l IH]; [done|].
  rewrite array_find_cons. case_decide as Hx.
  - intros [= <-]. split; [apply list_elem_of_here | done].
  - intros [Hin Hb]%IH. split; [by apply list_elem_of_further | done].
Qed.

Lemma update_id_stable i s book :
  id (if decide (id book = i) then with_status book s else book) = id book.
Proof. by case_decide. Qed.

Lemma update_absent_same i s (l : list Book) :
  Forall (λ book, ¬ id book = i) l →
  (λ book, if decide (id book = i) then with_status book s else book) <$> l
    = l.
Proof.
  induction 1 as [|b l Hb _ IH]; [done|].
  rewrite fmap_cons, IH. by rewrite decide_False.
Qed.

(** X5: [updateBookStatus i s] on an identifier that no record carries
    returns the state it was given: no record is added, none is changed. *)
Theorem X5_updateBookStatus_absent_noop :
  ∀ i s state,
    getBookById state i = None → updateBookStatus i s state = state.
Proof.
  intros i s state Habsent%array_find_None.
  unfold updateBookStatus. simpl.
  rewrite (update_absent_same i s _ Habsent). apply with_books_same.
Qed.

Lemma X5_updateBookStatus_absent_noop_witness :
  updateBookStatus "3" have_read initialState = initialState.
Proof.
  apply (X5_updateBookStatus_absent_noop "3" have_read initialState).
  reflexivity.
Defined.

(** X6: after [updateBookStatus i s], [getBookById i] returns the record it
    returned before with its status set to [s] (and still nothing when it
    found nothing), and [getBookById j] for any other identifier [j] returns
    what it returned before. *)
Theorem X6_getBookById_after_updateBookStatus :
  ∀ i j s state,
    getBookById (updateBookStatus i s state) i
      = (λ book, with_status book s) <$> getBookById state i ∧
    (j ≠ i →
       getBookById (updateBookStatus i s state) j = getBookById state j).
Proof.
  intros i j s state. unfold getBookById. simpl. split.
  - rewrite array_find_fmap_id by (intros; apply update_id_stable).
    destruct (array_find _ (books state)) as [b|] eqn:Hfound; [|done].
    apply array_find_Some_id in Hfound as [_ Hb]. simpl.
    by rewrite decide_True.
  - intros Hne.
    rewrite array_find_fmap_id by (intros; apply update_id_stable).
    destruct (array_find _ (books state)) as [b|] eqn:Hfound; [|done].
    apply array_find_Some_id in Hfound as [_ Hb]. simpl.
    rewrite decide_False; [done | congruence].
Qed.

Lemma X6_getBookById_after_updateBookStatus_witness :
  getBookById (updateBookStatus "2" have_read initialState) "1"
    = getBookById initialState "1".
Proof.
  apply (X6_getBookById_after_updateBookStatus "2" "1" have_read initialState).
  by_evaluation.
Defined.

(** X7: [updateBookStatus i s] keeps the Collection's length and order and
    changes nothing but statuses: position by position, the record after
    agrees with the record before on every field other than [status], and
    its status is [s] when its identifier is [i] and the old status
    otherwise. *)
Theorem X7_updateBookStatus_only_status :
  ∀ i s state,
    Forall2
      (λ before after,
         same_but_status before after ∧
         status after = if decide (id before = i) then Some s
                        else status before)
      (books state) (books (updateBookStatus i s state)).
Proof.
  intros i s state. simpl. apply Forall2_fmap_r, Forall_Forall2_diag.
  apply Forall_forall. intros b _. simpl.
  destruct (decide (id b = i)); by repeat split.
Qed.

(** X8: the last [updateBookStatus] on an identifier wins: setting [s] and
    then [t] on [i] gives the state that setting [t] alone gives. *)
Theorem X8_updateBookStatus_last_wins :
  ∀ i s t state,
    updateBookStatus i t (updateBookStatus i s state)
      = updateBookStatus i t state.
Proof.
  intros i s t state. unfold updateBookStatus. simpl.
  rewrite with_books_twice. f_equal.
  rewrite <- list_fmap_compose. apply list_fmap_ext.
  intros _ book _. simpl.
  destruct (decide (id book = i)) as [Heq|Hne].
  - by rewrite decide_True.
  - by rewrite decide_False.
Qed.

(** X9: status updates on two different identifiers commute. *)
Theorem X9_updateBookStatus_commute :
  ∀ i j s t state,
    i ≠ j →
    updateBookStatus i s (updateBookStatus j t state)
      = updateBookStatus j t (updateBookStatus i s state).
Proof.
  intros i j s t state Hne. unfold updateBookStatus. simpl.
  rewrite !with_books_twice. f_equal.
  rewrite <- !list_fmap_compose. apply list_fmap_ext.
  intros _ book _. simpl.
  destruct (decide (id book = i)) as [Hi|Hi],
           (decide (id book = j)) as [Hj|Hj]; simpl;
    repeat case_decide; congruence.
Qed.

Lemma X9_updateBookStatus_commute_witness :
  updateBookStatus "1" have_read
    (updateBookStatus "2" currently_reading initialState)
  = updateBookStatus "2" currently_reading
      (updateBookStatus "1" have_read initialState).
Proof.
  apply (X9_updateBookStatus_commute "1" "2"). by_evaluation.
Defined.

(** ** [removeBook] and [addBook] *)

Lemma length_filter_split {A} (P : A → Prop) `{!∀ x, Decision (P x)}
    (l : list A) :
  length (filter (λ x, ¬ P x) l) + length (filter P l) = length l.
Proof.
  induction l as [|x l IH]; [done|].
  rewrite !filter_cons.
  destruct (decide (P x)) as [Hx|Hx].
  - rewrite decide_False by tauto. simpl. lia.
  - rewrite decide_True by done. simpl. lia.
Qed.

(** X10: [removeBook i] deletes every record with identifier [i], not just
    the first: the Collection shrinks by the number of records that carried
    [i], and no record with identifier [i] is left. *)
Theorem X10_removeBook_removes_all :
  ∀ i state,
    getTotalBooks (removeBook i state) + count_id i state
      = getTotalBooks state ∧
    count_id i (removeBook i state) = 0.
Proof.
  intros i state. unfold getTotalBooks, count_id. simpl. split.
  - apply (length_filter_split (λ book, id book = i)).
  - rewrite list_filter_filter.
    rewrite (list_filter_iff _ (λ _, False)) by (intros; tauto).
    by induction (books state).
Qed.

(** X11: [removeBook] is idempotent, and two removals commute. *)
Theorem X11_removeBook_idempotent_commute :
  ∀ i j state,
    removeBook i (removeBook i state) = removeBook i state ∧
    removeBook i (removeBook j state) = removeBook j (removeBook i state).
Proof.
  intros i j state. unfold removeBook. simpl.
  rewrite !with_books_twice. split; f_equal.
  - rewrite list_filter_filter. apply list_filter_iff. intros; tauto.
  - rewrite !list_filter_filter. apply list_filter_iff. intros; tauto.
Qed.

(** X12: removing the identifier of a record just added undoes the
    addition: [removeBook (id r)] after [addBook r] gives what
    [removeBook (id r)] alone gives, and gives back the state before
    [addBook] when that state had no record with this identifier. *)
Theorem X12_addBook_then_removeBook :
  ∀ r state,
    removeBook (id r) (addBook r state) = removeBook (id r) state ∧
    (id r ∉ collection_ids state →
       removeBook (id r) (addBook r state) = state).
Proof.
  intros r state.
  assert (removeBook (id r) (addBook r state) = removeBook (id r) state)
    as Hsame.
  { unfold removeBook, addBook. simpl. rewrite with_books_twice. f_equal.
    rewrite filter_app, filter_cons_False, filter_nil by (simpl; tauto).
    apply app_nil_r. }
  split; [exact Hsame|].
  intros Hfresh%getBookById_None%array_find_None. rewrite Hsame.
  unfold removeBook. simpl.
  rewrite (filter_keeps_all _ _ Hfresh). apply with_books_same.
Qed.

Lemma X12_addBook_then_removeBook_witness :
  removeBook "2" (addBook scenario_B (removeBook "2" initialState))
    = removeBook "2" initialState.
Proof.
  apply (X12_addBook_then_removeBook scenario_B (removeBook "2" initialState)).
  by_evaluation.
Defined.

Lemma array_find_filter_other (i j : string) (l : list Book) :
  j ≠ i →
  array_find (λ book, id book = j) (filter (λ book, id book ≠ i) l)
    = array_find (λ book, id book = j) l.
Proof.
  intros Hne. induction l as [|b l IH]; [done|].
  rewrite filter_cons, array_find_cons.
  destruct (decide (id b ≠ i)) as [Hb|Hb].
  - rewrite array_find_cons. by case_decide.
  - rewrite decide_False; [done|]. intros Hj. apply Hb. congruence.
Qed.

(** X13: an operation on the Collection only affects the lookup of its own
    identifier: for [j] different from the identifier of the record added,
    of the identifier removed, or of the identifier updated, [getBookById j]
    returns after the operation what it returned before. *)
Theorem X13_getBookById_other_identifier :
  ∀ op j state,
    j ≠ op_id op →
    getBookById (apply_collection_op op state) j = getBookById state j.
Proof.
  intros [r|i|i s] j state Hne; unfold getBookById; simpl in *.
  - rewrite array_find_app, array_find_cons, decide_False, array_find_nil
      by (simpl; congruence).
    by destruct (array_find _ (books state)).
  - by apply array_find_filter_other.
  - rewrite array_find_fmap_id by (intros; apply update_id_stable).
    destruct (array_find _ (books state)) as [b|] eqn:Hfound; [|done].
    apply array_find_Some_id in Hfound as [_ Hb]. simpl.
    rewrite decide_False; [done | congruence].
Qed.

Lemma X13_getBookById_other_identifier_witness :
  getBookById (apply_collection_op (RemoveBook "1") initialState) "2"
    = getBookById initialState "2".
Proof.
  apply (X13_getBookById_other_identifier (RemoveBook "1") "2" initialState).
  by_evaluation.
Defined.

(** X14: [addBook r] leaves the number of completed books as it was and
    raises the total by one, even when [r] comes with status have-read; the
    new record is the last entry of the want-to-read list, and the lists of
    the other two statuses are unchanged. *)
Theorem X14_addBook_progress_and_lists :
  ∀ r state,
    getReadingProgress (addBook r state)
      = {| completed := completed (getReadingProgress state);
           total := S (total (getReadingProgress state)) |} ∧
    getBooksByStatus (addBook r state) want_to_read
      = getBooksByStatus state want_to_read ++ [with_status r want_to_read] ∧
    getBooksByStatus (addBook r state) currently_reading
      = getBooksByStatus state currently_reading ∧
    getBooksByStatus (addBook r state) have_read
      = getBooksByStatus state have_read.
Proof.
  intros r state. unfold getReadingProgress, getBooksByStatus. simpl.
  rewrite !filter_app, !length_app. simpl.
  rewrite filter_cons_True by done.
  rewrite !filter_cons_False by done.
  rewrite !filter_nil, !app_nil_r. simpl.
  split_and!; try done. f_equal; lia.
Qed.

(** ** Status changes seen through the helpers *)

Lemma completed_updateBookStatus_have_read i (l : list Book) :
  (length (filter (λ book, status book = Some have_read) l) ≤
   length (filter (λ book, status book = Some have_read)
             ((λ book, if decide (id book = i)
                       then with_status book have_read else book) <$> l)))%nat.
Proof.
  induction l as [|b l IH]; [done|].
  rewrite fmap_cons, !filter_cons.
  destruct (decide (id b = i)); simpl.
  - case_decide; simpl; lia.
  - case_decide; simpl; lia.
Qed.

Lemma completed_updateBookStatus_other i s (l : list Book) :
  s ≠ have_read →
  (length (filter (λ book, status book = Some have_read)
             ((λ book, if decide (id book = i)
                       then with_status book s else book) <$> l)) ≤
   length (filter (λ book, status book = Some have_read) l))%nat.
Proof.
  intros Hs. induction l as [|b l IH]; [done|].
  rewrite fmap_cons, !filter_cons.
  destruct (decide (id b = i)); simpl.
  - rewrite decide_False by congruence. case_decide; simpl; lia.
  - case_decide; simpl; lia.
Qed.

(** X15: after [updateBookStatus i s] every record of the Collection with
    identifier [i] is listed by [getBooksByStatus s] (all of them when the
    identifier occurs more than once), and by [getBooksByStatus t] for no
    other status [t]. *)
Theorem X15_updated_records_listed_under_status :
  ∀ i s t state book,
    book ∈ books (updateBookStatus i s state) → id book = i →
    book ∈ getBooksByStatus (updateBookStatus i s state) s ∧
    (t ≠ s → book ∉ getBooksByStatus (updateBookStatus i s state) t).
Proof.
  intros i s t state book Hin Hid.
  assert (status book = Some s) as Hs.
  { simpl in Hin. apply list_elem_of_fmap in Hin as (b & -> & _).
    destruct (decide (id b = i)); simpl in *; [done | congruence]. }
  unfold getBooksByStatus. rewrite !list_elem_of_filter. split; [done|].
  intros Hne [Ht _]. congruence.
Qed.

Lemma X15_updated_records_listed_under_status_witness :
  with_status other_book_1 have_read
    ∈ getBooksByStatus
        (updateBookStatus "1" have_read (addBook other_book_1 initialState))
        have_read.
Proof.
  apply (X15_updated_records_listed_under_status
           "1" have_read want_to_read
           (addBook other_book_1 initialState)); [by_evaluation | reflexivity].
Defined.

(** X16: [updateBookStatus] never changes the total of
    [getReadingProgress]; setting have-read never lowers the number of
    completed books, and setting one of the other two statuses never raises
    it. *)
Theorem X16_updateBookStatus_progress :
  ∀ i s state,
    total (getReadingProgress (updateBookStatus i s state))
      = total (getReadingProgress state) ∧
    (s = have_read →
       (completed (getReadingProgress state)
          ≤ completed (getReadingProgress (updateBookStatus i s state)))%nat) ∧
    (s ≠ have_read →
       (completed (getReadingProgress (updateBookStatus i s state))
          ≤ completed (getReadingProgress state))%nat).
Proof.
  intros i s state. unfold getReadingProgress. simpl. split_and!.
  - apply length_fmap.
  - intros ->. apply completed_updateBookStatus_have_read.
  - apply completed_updateBookStatus_other.
Qed.

Lemma X16_updateBookStatus_progress_witness :
  (completed (getReadingProgress initialState)
     ≤ completed (getReadingProgress
                    (updateBookStatus "1" have_read initialState)))%nat ∧
  (completed (getReadingProgress
                (updateBookStatus "2" currently_reading one_read))
     ≤ completed (getReadingProgress one_read))%nat.
Proof.
  split.
  - by apply (X16_updateBookStatus_progress "1" have_read initialState).
  - by apply (X16_updateBookStatus_progress "2" currently_reading one_read).
Defined.

Lemma length_filter_all {A} (P : A → Prop) `{!∀ x, Decision (P x)}
    (l : list A) :
  length (filter P l) = length l ↔ Forall P l.
Proof.
  split; [|intros Hall; by rewrite filter_keeps_all].
  induction l as [|x l IH]; [by constructor|].
  rewrite filter_cons. destruct (decide (P x)) as [Hx|Hx]; simpl.
  - intros [= Hl]. constructor; auto.
  - pose proof (length_filter P l). lia.
Qed.

(** X17: in every state the number of completed books is at most the
    total, and the two are equal exactly when every record of the
    Collection has status have-read. *)
Theorem X17_getReadingProgress_bounds :
  ∀ state,
    (completed (getReadingProgress state)
       ≤ total (getReadingProgress state))%nat ∧
    (completed (getReadingProgress state) = total (getReadingProgress state)
       ↔ ∀ book, book ∈ books state → status book = Some have_read).
Proof.
  intros state. unfold getReadingProgress. simpl. split.
  - apply length_filter.
  - rewrite length_filter_all. apply Forall_forall.
Qed.

Lemma X17_getReadingProgress_bounds_witness :
  completed (getReadingProgress (updateBookStatus "1" have_read one_read))
    = total (getReadingProgress (updateBookStatus "1" have_read one_read)).
Proof.
  apply (proj2 (X17_getReadingProgress_bounds
                  (updateBookStatus "1" have_read one_read))).
  apply Forall_forall. by_evaluation.
Defined.

(** ** [getBookById] *)

(** X18: what [getBookById i] returns is a record of the Collection whose
    identifier is [i]; it returns one exactly when the Collection has a
    record with identifier [i]; and when no two records share an
    identifier, every record of the Collection is the one [getBookById]
    returns for its identifier. *)
Theorem X18_getBookById_sound_complete :
  ∀ i state,
    (∀ book, getBookById state i = Some book →
             book ∈ books state ∧ id book = i) ∧
    (is_Some (getBookById state i) ↔ i ∈ collection_ids state) ∧
    (unique_ids state →
       ∀ book, book ∈ books state → id book = i →
               getBookById state i = Some book).
Proof.
  intros i state. split_and!.
  - intros book. apply array_find_Some_id.
  - rewrite <- not_eq_None_Some, getBookById_None.
    split; [apply dec_stable | tauto].
  - unfold unique_ids, collection_ids, getBookById.
    induction (books state) as [|b l IH]; intros Hnd book Hin Hid.
    + by apply elem_of_nil in Hin.
    + rewrite fmap_cons in Hnd. apply NoDup_cons in Hnd as [Hb Hnd].
      rewrite array_find_cons. apply elem_of_cons in Hin as [->|Hin].
      * by rewrite decide_True.
      * rewrite decide_False; [by apply IH|].
        intros Hbi. apply Hb, list_elem_of_fmap. exists book.
        split; [congruence | done].
Qed.

Lemma X18_getBookById_sound_complete_witness :
  getBookById initialState "2"
    = (λ book, with_status book want_to_read) <$> sampleBooks !! 1.
Proof.
  destruct (X18_getBookById_sound_complete "2" initialState)
    as (_ & _ & Hfind).
  apply Hfind; [by_evaluation | by_evaluation | reflexivity].
Defined.

(** ** Searching *)

(** X19: the search results are replaced, never merged: a search overwrites
    what an earlier search or [clearSearch] left, [clearSearch] after a
    search gives what [clearSearch] alone gives, and after [clearSearch] the
    search results are empty. *)
Theorem X19_search_results_replaced :
  ∀ q1 o1 n1 q2 o2 n2 state,
    searchBooks q2 o2 n2 (searchBooks q1 o1 n1 state)
      = searchBooks q2 o2 n2 state ∧
    searchBooks q2 o2 n2 (clearSearch state) = searchBooks q2 o2 n2 state ∧
    clearSearch (searchBooks q1 o1 n1 state) = clearSearch state ∧
    searchResults (clearSearch (searchBooks q1 o1 n1 state)) = [].
Proof.
  intros q1 o1 n1 q2 o2 n2 state.
  destruct o1 as [|[items1|]], o2 as [|[items2|]]; done.
Qed.

(** X20: a search (or [clearSearch]) and an operation on the Collection
    commute: whether the gateway answers before or after an [addBook],
    [removeBook] or [updateBookStatus], the state in the end is the same. *)
Theorem X20_search_commutes_with_collection_ops :
  ∀ op q outcome now state,
    apply_collection_op op (searchBooks q outcome now state)
      = searchBooks q outcome now (apply_collection_op op state) ∧
    apply_collection_op op (clearSearch state)
      = clearSearch (apply_collection_op op state).
Proof.
  intros [r|i|i s] q [|[items|]] now state; done.
Qed.

(** X21: when the gateway resolves with an [items] array, the search
    results are those items in the same order, each unchanged but for its
    status, which is want-to-read; an empty array gives empty search
    results, not the placeholder of a failed search. *)
Theorem X21_searchBooks_success :
  ∀ q items now state,
    Forall2
      (λ item result,
         same_but_status item result ∧ status result = Some want_to_read)
      items
      (searchResults (searchBooks q (Resolved (Some items)) now state)) ∧
    searchResults (searchBooks q (Resolved (Some [])) now state) = [].
Proof.
  intros q items now state. simpl. split; [|done].
  apply Forall2_fmap_r, Forall_Forall2_diag, Forall_forall.
  intros item _. by repeat split.
Qed.

(** * The pages *)

(** ** [BookDetailsPage] *)

(** X22: [BookDetailsPage] renders "Book not found" exactly when the route
    has no [id] parameter or no record of the Collection has that
    identifier; otherwise it renders the details of a record of the
    Collection whose identifier is the parameter, with a way back to
    [/collection]. *)
Theorem X22_BookDetailsPage_renders :
  ∀ idParam state,
    (BookDetailsPage idParam state = BookNotFound ↔
       ∀ i, idParam = Some i → i ∉ collection_ids state) ∧
    (∀ book onBack,
       BookDetailsPage idParam state = BookDetails book onBack →
       idParam = Some (id book) ∧ book ∈ books state ∧
       onBack = "/collection").
Proof.
  intros [i|] state; unfold BookDetailsPage; split.
  - destruct (getBookById state i) as [b|] eqn:Hfound.
    + split; [done|]. intros Hnone.
      specialize (Hnone i eq_refl). apply getBookById_None in Hnone.
      congruence.
    + split; [|done]. intros _ j [= <-]. by apply getBookById_None.
  - intros book onBack.
    destruct (getBookById state i) as [b|] eqn:Hfound; [|done].
    intros [= <- <-]. apply array_find_Some_id in Hfound as [Hin <-]. done.
  - split; [|done]. by intros _ i.
  - done.
Qed.

Lemma X22_BookDetailsPage_renders_witness :
  Some "2" = Some (id (with_status scenario_B want_to_read)) ∧
  with_status scenario_B want_to_read ∈ books (addBook scenario_B
                                                 (removeBook "2" initialState)) ∧
  "/collection" = "/collection".
Proof.
  apply (X22_BookDetailsPage_renders (Some "2")
           (addBook scenario_B (removeBook "2" initialState))).
  reflexivity.
Defined.

(** X23: the details page of an identifier shows "Book not found" right
    after [removeBook] of that identifier, and shows a record right after
    [addBook] of a record with that identifier. *)
Theorem X23_BookDetailsPage_after_remove_add :
  ∀ i r state,
    BookDetailsPage (Some i) (removeBook i state) = BookNotFound ∧
    BookDetailsPage (Some (id r)) (addBook r state) ≠ BookNotFound.
Proof.
  intros i r state. unfold BookDetailsPage. split.
  - replace (getBookById (removeBook i state) i) with (@None Book); [done|].
    symmetry. apply (array_find_filter_out (λ book, id book = i)).
  - destruct (getBookById (addBook r state) (id r)) eqn:Hfound; [done|].
    apply getBookById_None in Hfound.
    rewrite collection_ids_addBook in Hfound.
    exfalso. apply Hfound, elem_of_app. right. apply list_elem_of_here.
Qed.

(** ** [Navigation] *)

(** X24: whatever the current path, at most one of the three navigation
    links is highlighted, and each link's class is one of the two the
    component writes. *)
Theorem X24_Navigation_at_most_one_active :
  ∀ pathname,
    (active_links (Navigation pathname) ≤ 1)%nat ∧
    Forall (λ c, c = "nav-link active" ∨ c = "nav-link")
      [homeClassName (Navigation pathname);
       searchClassName (Navigation pathname);
       collectionClassName (Navigation pathname)].
Proof.
  intros pathname. unfold active_links, Navigation. simpl. split.
  - destruct (decide (pathname = "/")) as [->|Hhome]; [vm_compute; lia|].
    destruct (decide (pathname = "/search")) as [->|Hsearch];
      [vm_compute; lia|].
    destruct (String.prefix "/collection" pathname); vm_compute; lia.
  - repeat (apply Forall_cons; split); [..|by apply Forall_nil].
    + case_decide; auto.
    + case_decide; auto.
    + destruct (String.prefix "/collection" pathname); auto.
Qed.

Lemma prefix_app (s rest : string) : String.prefix s (s +:+ rest) = true.
Proof.
  induction s as [|c s IH]; [by destruct rest|].
  change (String.prefix (String c s) (String c (s +:+ rest)) = true).
  simpl. by destruct (Ascii.ascii_dec c c).
Qed.

(** X25: every path that starts with [/collection] highlights the
    collection link (and only it), whatever follows; a book's details path
    [/book/<id>] highlights no link at all. *)
Theorem X25_Navigation_collection_and_book_paths :
  ∀ rest,
    collectionClassName (Navigation ("/collection" +:+ rest))
      = "nav-link active" ∧
    active_links (Navigation ("/collection" +:+ rest)) = 1 ∧
    active_links (Navigation ("/book/" +:+ rest)) = 0.
Proof.
  intros rest.
  assert (String.prefix "/collection" ("/collection" +:+ rest) = true)
    as Hprefix by apply prefix_app.
  unfold active_links, Navigation. rewrite Hprefix.
  rewrite !(decide_False (P := "/collection" +:+ rest = "/")) by done.
  rewrite !(decide_False (P := "/collection" +:+ rest = "/search")) by done.
  rewrite !(decide_False (P := "/book/" +:+ rest = "/")) by done.
  rewrite !(decide_False (P := "/book/" +:+ rest = "/search")) by done.
  by split_and!.
Qed.

(** * The query builder *)

Lemma string_app_assoc (a b c : string) : (a +:+ b) +:+ c = a +:+ b +:+ c.
Proof.
  induction a as [|x a IH]; [done|].
  change (String x ((a +:+ b) +:+ c) = String x (a +:+ b +:+ c)).
  by f_equal.
Qed.

Lemma append_filter_suffix tag field query :
  ∃ suffix,
    append_filter tag field query = query +:+ suffix ∧
    (truthy field = false → suffix = "").
Proof.
  destruct field as [s|]; simpl.
  - destruct (bool_decide (s ≠ "")).
    + exists (tag +:+ s). by split.
    + exists "". by rewrite string_app_empty_r.
  - exists "". by rewrite string_app_empty_r.
Qed.

Lemma buildSearchQuery_suffix searchTerm filters :
  ∃ suffix,
    buildSearchQuery searchTerm filters = searchTerm +:+ suffix ∧
    ((∀ f, filters = Some f →
           truthy (author f) = false ∧ truthy (subject f) = false ∧
           truthy (publisher f) = false ∧ truthy (isbn f) = false) →
     suffix = "").
Proof.
  destruct filters as [f|]; simpl.
  - destruct (append_filter_suffix "+inauthor:" (author f) searchTerm)
      as (s1 & -> & H1).
    destruct (append_filter_suffix "+subject:" (subject f)
                (searchTerm +:+ s1)) as (s2 & -> & H2).
    destruct (append_filter_suffix "+inpublisher:" (publisher f)
                ((searchTerm +:+ s1) +:+ s2)) as (s3 & -> & H3).
    destruct (append_filter_suffix "+isbn:" (isbn f)
                (((searchTerm +:+ s1) +:+ s2) +:+ s3)) as (s4 & -> & H4).
    exists (s1 +:+ s2 +:+ s3 +:+ s4). split.
    + by rewrite !string_app_assoc.
    + intros Hall. destruct (Hall f eq_refl) as (?&?&?&?).
      by rewrite H1, H2, H3, H4.
  - exists "". by rewrite string_app_empty_r.
Qed.

(** X26: the query [buildSearchQuery] returns always starts with the search
    term; it is the search term itself when [filters] is missing or when
    each of its four fields is missing or the empty string. *)
Theorem X26_buildSearchQuery_extends_term :
  ∀ searchTerm filters,
    (∃ suffix, buildSearchQuery searchTerm filters = searchTerm +:+ suffix) ∧
    ((∀ f, filters = Some f →
           truthy (author f) = false ∧ truthy (subject f) = false ∧
           truthy (publisher f) = false ∧ truthy (isbn f) = false) →
     buildSearchQuery searchTerm filters = searchTerm).
Proof.
  intros searchTerm filters.
  destruct (buildSearchQuery_suffix searchTerm filters)
    as (suffix & Heq & Hempty).
  split; [by exists suffix|].
  intros Hall. rewrite Heq, (Hempty Hall). apply string_app_empty_r.
Qed.

Lemma X26_buildSearchQuery_extends_term_witness :
  buildSearchQuery "react"
    (Some {| author := Some ""; subject := None;
             publisher := Some ""; isbn := None |}) = "react".
Proof.
  apply X26_buildSearchQuery_extends_term. by intros f [= <-].
Defined.
